(** * magog utilities: string hashing, assertions and 4x4 transform builders

    A shallow embedding of [src/util/core.hpp] and [src/util/transform.cpp].

    - [size_t] values are integers in [Z] reduced modulo [2 ^ size_bits];
      the width of [size_t] is a parameter of the hashing section.
    - [float] values are real numbers: every arithmetic operation of the
      source is read as the exact operation on [R].  Rounding, infinities
      and NaN are outside this model.
    - An assertion either lets the computation go on or ends it; functions
      that assert return an [outcome]. *)

From Stdlib Require Import Reals Lra RNsatz.
From Stdlib Require Import ZArith String Bool List Lia.
Import ListNotations.

(** ** core.hpp *)

Module Core.

Local Open Scope Z_scope.

Section SizeT.

(** Number of value bits of [size_t] on the target. *)
Variable size_bits : Z.

(** Conversion of an integer value to [size_t]: reduction modulo
    [2 ^ size_bits].  This is what C++ does for the literals
    [2166136261u] and [16777619u], for the promoted [char] [s[I]], and for
    the result of a [size_t] multiplication. *)
Definition to_size_t (z : Z) : Z := z mod 2 ^ size_bits.

(** [(h ^ c) * 16777619u] evaluated in [size_t]. *)
Definition xor_mul (h c : Z) : Z :=
  to_size_t (Z.lxor h (to_size_t c) * to_size_t 16777619).

(** [_hash_calc<N, I>::apply(s)].  The array [s] is the list of the values
    of its [char] elements.  The specialisation [_hash_calc<N, N>] returns
    the seed; the primary template instantiates [_hash_calc<N, I+1>].
    [depth] bounds the number of nested template instantiations; running
    out of it is [None]. *)
Fixpoint _hash_calc (depth : nat) (N I : nat) (s : list Z) : option Z :=
  if Nat.eqb I N then Some (to_size_t 2166136261)
  else
    match depth with
    | O => None
    | S d =>
        match _hash_calc d N (S I) s with
        | Some h => Some (xor_mul h (nth I s 0))
        | None => None
        end
    end.

(** [const_hash(s)] for [s] of type [const char (&)[N]]: [N] is the length
    of the array and [I] defaults to [0]. *)
Definition const_hash (s : list Z) : option Z :=
  _hash_calc (length s) (length s) 0 s.

(** [hash] is declared in core.hpp ([size_t hash(const char* s)]) and defined
    elsewhere; it has no model here. *)

End SizeT.

(** Result of a function that may end the process in an assertion:
    [Ret a] is a normal return, [Abort expr line] is the failed assertion of
    the expression text [expr] at source line [line]. *)
Inductive outcome (A : Type) : Type :=
| Ret (a : A)
| Abort (expr : string) (line : nat).

Arguments Ret {A} a.
Arguments Abort {A} expr line.

(** The macro [ASSERT(expr)] in front of the rest [k] of a function body.
    [checks] is [false] when the build defines [NDEBUG]: the macro then
    expands to [((void)0)] and [cond] is not evaluated.  Otherwise a false
    [cond] calls [die] with the expression text and the place in the source.
    Modelled from the spec: [die], which core.hpp only declares, "formats a
    diagnostic message and unconditionally terminates the process"; that is
    the outcome [Abort]. *)
Definition ASSERT {A : Type} (checks cond : bool) (expr : string) (line : nat)
    (k : outcome A) : outcome A :=
  if checks then (if cond then k else Abort expr line) else k.

End Core.

(** ** transform.cpp *)

Module Transform.

Import Core.
Local Open Scope R_scope.

(** [a != b] on [float]. *)
Definition Rneqb (a b : R) : bool :=
  if Req_dec_T a b then false else true.

(** [BOOST_ASSERT] of <boost/assert.hpp>, a library outside the
    repository.  In its default configuration it is the standard [assert]:
    compiled out under [NDEBUG], and otherwise ending the process with a
    message that gives the expression and its place in the source, as the
    [ASSERT] of core.hpp does through [die]. *)
Definition BOOST_ASSERT {A : Type} (checks cond : bool) (expr : string)
    (line : nat) (k : outcome A) : outcome A :=
  ASSERT checks cond expr line k.

(** [pi] of num.hpp, which is not part of the sources at hand: the circle
    constant. *)
Definition pi : R := PI.

(** Modelled from the spec: the type [Gl_Matrix] of transform.hpp, "16
    floating-point entries".  A matrix is the list of its 16 entries in the
    order of the braced initialiser, read row by row as the source lays
    them out; [m[i][j]] is entry [4 * i + j]. *)
Definition Gl_Matrix : Type := list R.

Definition mat_at (m : Gl_Matrix) (i j : nat) : R := nth (4 * i + j) m 0.

Fixpoint list_set (k : nat) (v : R) (m : list R) : list R :=
  match m, k with
  | [], _ => []
  | _ :: m', O => v :: m'
  | a :: m', S k' => a :: list_set k' v m'
  end.

(** [m[i][j] = v]. *)
Definition mat_set (m : Gl_Matrix) (i j : nat) (v : R) : Gl_Matrix :=
  list_set (4 * i + j) v m.

(** Modelled from the spec: [Gl_Matrix::unit()], which makes the receiver
    the identity matrix ("builds an identity matrix"). *)
Definition unit : Gl_Matrix :=
  [ 1; 0; 0; 0;
    0; 1; 0; 0;
    0; 0; 1; 0;
    0; 0; 0; 1 ].

(** Modelled from the spec: [Vec3f], "3 floating-point components", read
    with [v[i]] for [i] in 0..2. *)
Record Vec3f : Type := mkVec3f { vx : R; vy : R; vz : R }.

Definition vec_at (v : Vec3f) (i : nat) : R :=
  match i with
  | O => vx v
  | S O => vy v
  | S (S O) => vz v
  | _ => 0
  end.

Definition length3 (v : Vec3f) : R :=
  sqrt (vx v * vx v + vy v * vy v + vz v * vz v).

(** Modelled from the spec: [Vec3f::normalize()], "scale to unit length". *)
Definition normalize (v : Vec3f) : Vec3f :=
  mkVec3f (vx v / length3 v) (vy v / length3 v) (vz v / length3 v).

(** Modelled from the spec: [Quaternion], "4 floating-point components
    (scalar + 3 imaginary)", read with [q[i]] for [i] in 0..3, the scalar
    first. *)
Record Quaternion : Type := mkQuaternion { q0 : R; q1 : R; q2 : R; q3 : R }.

Definition frustum (checks : bool) (l r b t n f : R) : outcome Gl_Matrix :=
  BOOST_ASSERT checks (Rneqb l r) "l != r" 11 (
  BOOST_ASSERT checks (Rneqb b t) "b != t" 12 (
  BOOST_ASSERT checks (Rneqb n f) "n != f" 13 (
  Ret [ 2*n / (r - l); 0;             (r + l) / (r - l);  0;
        0;             2*n / (t - b); (t + b) / (t - b);  0;
        0;             0;             -(f + n) / (f - n); -2*f*n / (f - n);
        0;             0;             -1;                 0 ]))).

Definition ortho (checks : bool) (l r b t n f : R) : outcome Gl_Matrix :=
  BOOST_ASSERT checks (Rneqb l r) "l != r" 26 (
  BOOST_ASSERT checks (Rneqb b t) "b != t" 27 (
  BOOST_ASSERT checks (Rneqb n f) "n != f" 28 (
  Ret [ 2 / (r - l); 0;           0;            -(r + l) / (r - l);
        0;           2 / (t - b); 0;            -(t + b) / (t - b);
        0;           0;           -2 / (f - n); (f + n) / (f - n);
        0;           0;           0;            0 ]))).

(** The locals [fh] and [fw] of [perspective]. *)
Definition perspective_fh (v_fov z_near : R) : R :=
  tan (v_fov / 360 * pi) * z_near.

Definition perspective_fw (v_fov aspect z_near : R) : R :=
  perspective_fh v_fov z_near * aspect.

Definition perspective (checks : bool) (v_fov aspect z_near z_far : R)
    : outcome Gl_Matrix :=
  let fh := perspective_fh v_fov z_near in
  let fw := fh * aspect in
  frustum checks (-fw) fw (-fh) fh z_near z_far.

(** [for (int i = 0; i < 3; i++) result[3][i] = delta[i];] on the unit
    matrix. *)
Definition translation (delta : Vec3f) : Gl_Matrix :=
  fold_left (fun result i => mat_set result 3 i (vec_at delta i))
            (seq 0 3) unit.

(** [rotation(const Vec3f& axis, float angle)]. *)
Definition rotation (axis : Vec3f) (angle : R) : Gl_Matrix :=
  let u := normalize axis in
  let x := vec_at u 0 in
  let y := vec_at u 1 in
  let z := vec_at u 2 in
  let c := cos angle in
  let s := sin angle in
  [ c + x*x*(1 - c);   x*y*(1 - c) - z*s; x*z*(1 - c) + y*s; 0;
    y*x*(1 - c) + z*s; c + y*y*(1 - c);   y*z*(1 - c) - x*s; 0;
    z*x*(1 - c) - y*s; z*y*(1 - c) + x*s; c + z*z*(1 - c);   0;
    0;                 0;                 0;                 1 ].

(** [rotation(const Quaternion& q)], the overload on a quaternion. *)
Definition rotation_q (q : Quaternion) : Gl_Matrix :=
  [ 1 - (2*q2 q*q2 q + 2*q3 q*q3 q); 2*q1 q*q2 q + 2*q3 q*q0 q;       2*q1 q*q3 q - 2*q2 q*q0 q;       0;
    2*q1 q*q2 q - 2*q3 q*q0 q;       1 - (2*q1 q*q1 q + 2*q3 q*q3 q); 2*q2 q*q3 q + 2*q1 q*q0 q;       0;
    2*q1 q*q3 q + 2*q2 q*q0 q;       2*q2 q*q3 q - 2*q1 q*q0 q;       1 - (2*q1 q*q1 q + 2*q2 q*q2 q); 0;
    0;                               0;                               0;                               1 ].

(** *** Vocabulary of the properties

    None of the following is in the source; these are the notions the
    properties of the builders are stated with. *)

(** The transposed matrix. *)
Definition transpose (m : Gl_Matrix) : Gl_Matrix :=
  map (fun k => mat_at m (k mod 4) (k / 4)) (seq 0 16).

Definition kronecker (i j : nat) : R := if Nat.eqb i j then 1 else 0.

(** Entry [(i, j)] of [B * B^T] and of [B^T * B], where [B] is the
    upper-left 3x3 block of [m]. *)
Definition block_mul_transpose (m : Gl_Matrix) (i j : nat) : R :=
  mat_at m i 0 * mat_at m j 0 + mat_at m i 1 * mat_at m j 1
  + mat_at m i 2 * mat_at m j 2.

Definition block_transpose_mul (m : Gl_Matrix) (i j : nat) : R :=
  mat_at m 0 i * mat_at m 0 j + mat_at m 1 i * mat_at m 1 j
  + mat_at m 2 i * mat_at m 2 j.

(** The upper-left 3x3 block applied to a vector, as [B * v] (column
    vectors) and as [v * B] (row vectors). *)
Definition block_times_column (m : Gl_Matrix) (v : Vec3f) : Vec3f :=
  mkVec3f (mat_at m 0 0 * vx v + mat_at m 0 1 * vy v + mat_at m 0 2 * vz v)
          (mat_at m 1 0 * vx v + mat_at m 1 1 * vy v + mat_at m 1 2 * vz v)
          (mat_at m 2 0 * vx v + mat_at m 2 1 * vy v + mat_at m 2 2 * vz v).

Definition row_times_block (v : Vec3f) (m : Gl_Matrix) : Vec3f :=
  mkVec3f (vx v * mat_at m 0 0 + vy v * mat_at m 1 0 + vz v * mat_at m 2 0)
          (vx v * mat_at m 0 1 + vy v * mat_at m 1 1 + vz v * mat_at m 2 1)
          (vx v * mat_at m 0 2 + vy v * mat_at m 1 2 + vz v * mat_at m 2 2).

(** A homogeneous row vector [p] (four entries) times the matrix. *)
Definition row_times (p : list R) (m : Gl_Matrix) : list R :=
  map (fun j => nth 0 p 0 * mat_at m 0 j + nth 1 p 0 * mat_at m 1 j
                + nth 2 p 0 * mat_at m 2 j + nth 3 p 0 * mat_at m 3 j)
      (seq 0 4).

(** The homogeneous point of a position. *)
Definition point (v : Vec3f) : list R := [vx v; vy v; vz v; 1].

Definition zero3 : Vec3f := mkVec3f 0 0 0.

(** The canonical quaternion of a rotation by [angle] about [axis]:
    [(cos (angle/2), sin (angle/2) * normalize axis)]. *)
Definition axis_angle_quaternion (axis : Vec3f) (angle : R) : Quaternion :=
  let u := normalize axis in
  mkQuaternion (cos (angle / 2))
               (sin (angle / 2) * vx u)
               (sin (angle / 2) * vy u)
               (sin (angle / 2) * vz u).

(** Degrees to radians. *)
Definition radians (deg : R) : R := deg * PI / 180.

(** The first three rows of the orthographic projection of the OpenGL
    Programming Guide (the matrix of [glOrtho]): scalings [2/(r-l)],
    [2/(t-b)], [-2/(f-n)] and translations [-(r+l)/(r-l)], [-(t+b)/(t-b)],
    [-(f+n)/(f-n)]. *)
Definition glOrtho_rows (l r b t n f : R) : list R :=
  [ 2 / (r - l); 0;           0;            - ((r + l) / (r - l));
    0;           2 / (t - b); 0;            - ((t + b) / (t - b));
    0;           0;           - (2 / (f - n)); - ((f + n) / (f - n)) ].

(** The matrix that [rotation] builds, as a function of the normalised
    axis [(x, y, z)] and of the cosine [c] and sine [s] of the angle. *)
Definition rodrigues (x y z c s : R) : Gl_Matrix :=
  [ c + x*x*(1 - c);   x*y*(1 - c) - z*s; x*z*(1 - c) + y*s; 0;
    y*x*(1 - c) + z*s; c + y*y*(1 - c);   y*z*(1 - c) - x*s; 0;
    z*x*(1 - c) - y*s; z*y*(1 - c) + x*s; c + z*z*(1 - c);   0;
    0;                 0;                 0;                 1 ].

(** The product of two matrices and the matrix times a homogeneous column
    vector [p] (four entries). *)
Definition mat_mul (a b : Gl_Matrix) : Gl_Matrix :=
  map (fun k => mat_at a (k / 4) 0 * mat_at b 0 (k mod 4)
                + mat_at a (k / 4) 1 * mat_at b 1 (k mod 4)
                + mat_at a (k / 4) 2 * mat_at b 2 (k mod 4)
                + mat_at a (k / 4) 3 * mat_at b 3 (k mod 4))
      (seq 0 16).

Definition times_column (m : Gl_Matrix) (p : list R) : list R :=
  map (fun i => mat_at m i 0 * nth 0 p 0 + mat_at m i 1 * nth 1 p 0
                + mat_at m i 2 * nth 2 p 0 + mat_at m i 3 * nth 3 p 0)
      (seq 0 4).

(** Sum, opposite and multiple of vectors. *)
Definition add3 (a b : Vec3f) : Vec3f :=
  mkVec3f (vx a + vx b) (vy a + vy b) (vz a + vz b).

Definition opp3 (a : Vec3f) : Vec3f := mkVec3f (- vx a) (- vy a) (- vz a).

Definition scale3 (k : R) (a : Vec3f) : Vec3f :=
  mkVec3f (k * vx a) (k * vy a) (k * vz a).

(** The determinant of the upper-left 3x3 block. *)
Definition block_det (m : Gl_Matrix) : R :=
  mat_at m 0 0 * (mat_at m 1 1 * mat_at m 2 2 - mat_at m 1 2 * mat_at m 2 1)
  - mat_at m 0 1 * (mat_at m 1 0 * mat_at m 2 2 - mat_at m 1 2 * mat_at m 2 0)
  + mat_at m 0 2 * (mat_at m 1 0 * mat_at m 2 1 - mat_at m 1 1 * mat_at m 2 0).

(** The squared norm, the opposite and the conjugate of a quaternion. *)
Definition norm2_q (q : Quaternion) : R :=
  q0 q * q0 q + q1 q * q1 q + q2 q * q2 q + q3 q * q3 q.

Definition opp_q (q : Quaternion) : Quaternion :=
  mkQuaternion (- q0 q) (- q1 q) (- q2 q) (- q3 q).

Definition conj_q (q : Quaternion) : Quaternion :=
  mkQuaternion (q0 q) (- q1 q) (- q2 q) (- q3 q).


End Transform.

(** * Properties *)

(** ** The string hasher *)

Section HashFacts.

Import Core.
Local Open Scope Z_scope.

Variable size_bits : Z.

Lemma skipn_nth_cons (s : list Z) :
  forall I : nat, (I < length s)%nat ->
    skipn I s = nth I s 0 :: skipn (S I) s.
Proof.
  induction s as [|c s IH]; intros I HI; simpl in HI.
  - lia.
  - destruct I as [|I]; [reflexivity|].
    change (skipn I s = nth I s 0 :: skipn (S I) s).
    apply IH; lia.
Qed.

(** The template recursion started at index [I] folds the elements from
    [I] on, the innermost application being that of the last index. *)
Lemma _hash_calc_suffix (s : list Z) :
  forall (depth I : nat),
    (I <= length s)%nat -> (length s - I <= depth)%nat ->
    _hash_calc size_bits depth (length s) I s
    = Some (fold_right (fun c h => xor_mul size_bits h c)
              (to_size_t size_bits 2166136261) (skipn I s)).
Proof.
  induction depth as [|d IH]; intros I Hle Hd; simpl.
  - assert (I = length s) by lia; subst I.
    rewrite Nat.eqb_refl, skipn_all; reflexivity.
  - destruct (Nat.eqb_spec I (length s)) as [->|Hne].
    + rewrite skipn_all; reflexivity.
    + rewrite IH by lia.
      rewrite (skipn_nth_cons s I) by lia.
      reflexivity.
Qed.

Lemma const_hash_fold_right (s : list Z) :
  const_hash size_bits s
  = Some (fold_right (fun c h => xor_mul size_bits h c)
            (to_size_t size_bits 2166136261) s).
Proof.
  unfold const_hash.
  rewrite _hash_calc_suffix by lia.
  reflexivity.
Qed.

Lemma const_hash_fold_left (s : list Z) :
  const_hash size_bits s
  = Some (fold_left (xor_mul size_bits) (rev s)
            (to_size_t size_bits 2166136261)).
Proof.
  rewrite const_hash_fold_right.
  rewrite <- (rev_involutive s) at 1.
  rewrite fold_left_rev_right.
  reflexivity.
Qed.

Lemma to_size_t_small (z : Z) :
  32 <= size_bits -> 0 <= z < 2 ^ 32 -> to_size_t size_bits z = z.
Proof.
  intros Hw Hz. unfold to_size_t.
  apply Z.mod_small.
  assert (2 ^ 32 <= 2 ^ size_bits) by (apply Z.pow_le_mono_r; lia).
  lia.
Qed.

Lemma empty_literal_not_seed :
  32 <= size_bits ->
  (Z.lxor 2166136261 0 * 16777619) mod 2 ^ size_bits <> 2166136261.
Proof.
  intros Hw E.
  assert (Hdiv : (2 ^ 32 | 2 ^ size_bits)).
  { exists (2 ^ (size_bits - 32)).
    rewrite <- Z.pow_add_r by lia. f_equal; lia. }
  pose proof (Z.mod_mod_divide (Z.lxor 2166136261 0 * 16777619)
                (2 ^ size_bits) (2 ^ 32) Hdiv) as H.
  rewrite E in H.
  vm_compute in H. discriminate H.
Qed.

Lemma fold_left_pointwise (f g : Z -> Z -> Z) (l : list Z) :
  (forall h c, f h c = g h c) ->
  forall a : Z, fold_left f l a = fold_left g l a.
Proof.
  intros Hfg. induction l as [|c l IH]; intros a; simpl.
  - reflexivity.
  - rewrite Hfg. apply IH.
Qed.

(** With at least 32 bits the multiplier is not reduced by the conversion,
    and a step is the xor with the converted character followed by the
    multiplication, reduced to the width. *)
Lemma xor_mul_explicit (h c : Z) :
  32 <= size_bits ->
  xor_mul size_bits h c
  = (Z.lxor h (c mod 2 ^ size_bits) * 16777619) mod 2 ^ size_bits.
Proof.
  intros Hw. unfold xor_mul.
  rewrite (to_size_t_small 16777619) by lia.
  reflexivity.
Qed.

End HashFacts.

(** C7.  On a target whose [size_t] has at least 32 bits, [const_hash] of a
    character array is the fold that starts from the seed 2166136261 and, for
    each element from the last index down to index 0, xors the element
    (converted to [size_t]) into the running value and multiplies the result
    by 16777619, modulo [2 ^ size_bits].  For an array that ends in a
    terminator the terminator is the first element folded.  For the array of
    the empty literal the digest is [(2166136261 xor 0) * 16777619] in
    [size_t], which is not the seed.  The digests of ["ab"] with 64 and with
    32 bits, and of an array with a negative [char], are the numbers this
    fold gives. *)
Theorem const_hash_folds_from_last_index :
  forall size_bits : Z, (32 <= size_bits)%Z ->
    (forall s : list Z,
        Core.const_hash size_bits s
        = Some (fold_left
                  (fun h c =>
                     (Z.lxor h (c mod 2 ^ size_bits) * 16777619)
                     mod 2 ^ size_bits)%Z
                  (rev s) 2166136261%Z))
    /\ (forall cs : list Z,
        Core.const_hash size_bits (cs ++ [0%Z])
        = Some (fold_left
                  (fun h c =>
                     (Z.lxor h (c mod 2 ^ size_bits) * 16777619)
                     mod 2 ^ size_bits)%Z
                  (rev cs)
                  ((Z.lxor 2166136261 0 * 16777619) mod 2 ^ size_bits)%Z))
    /\ Core.const_hash size_bits [0%Z]
       = Some ((Z.lxor 2166136261 0 * 16777619) mod 2 ^ size_bits)%Z
    /\ Core.const_hash size_bits [0%Z] <> Some 2166136261%Z
    /\ Core.const_hash 64 [97%Z; 98%Z; 0%Z] = Some 18099145477535151698%Z
    /\ Core.const_hash 32 [97%Z; 98%Z; 0%Z] = Some 513390162%Z
    /\ Core.const_hash 64 [(-1)%Z; 0%Z] = Some 14679948422120302240%Z.
Proof.
  intros w Hw.
  assert (Hseed : Core.to_size_t w 2166136261 = 2166136261%Z)
    by (apply to_size_t_small; lia).
  assert (Hall : forall s : list Z,
             Core.const_hash w s
             = Some (fold_left
                       (fun h c =>
                          (Z.lxor h (c mod 2 ^ w) * 16777619) mod 2 ^ w)%Z
                       (rev s) 2166136261%Z)).
  { intros s. rewrite const_hash_fold_left, Hseed. f_equal.
    apply fold_left_pointwise.
    intros h c. apply xor_mul_explicit. exact Hw. }
  assert (Hempty : Core.const_hash w [0%Z]
                   = Some ((Z.lxor 2166136261 0 * 16777619) mod 2 ^ w)%Z).
  { rewrite Hall. cbn [rev app fold_left].
    rewrite Zmod_0_l. reflexivity. }
  split; [exact Hall|].
  split.
  { intros cs. rewrite Hall, rev_app_distr. cbn [rev app fold_left].
    rewrite Zmod_0_l. reflexivity. }
  split; [exact Hempty|].
  split.
  { rewrite Hempty. intros E. injection E as E.
    exact (empty_literal_not_seed w Hw E). }
  repeat split; vm_compute; reflexivity.
Qed.

Lemma const_hash_folds_from_last_index_witness :
  Core.const_hash 64 [97%Z; 0%Z]
  = Some (fold_left
            (fun h c => (Z.lxor h (c mod 2 ^ 64) * 16777619) mod 2 ^ 64)%Z
            (rev [97%Z; 0%Z]) 2166136261%Z).
Proof.
  apply (proj1 (const_hash_folds_from_last_index 64 ltac:(lia))).
Defined.

(** ** The transform builders *)

Section BuilderFacts.

Import Core Transform.
Local Open Scope R_scope.

Lemma Rneqb_neq (a b : R) : a <> b -> Rneqb a b = true.
Proof.
  intros H. unfold Rneqb. destruct (Req_dec_T a b); [contradiction|reflexivity].
Qed.

Lemma Rneqb_eq (a b : R) : a = b -> Rneqb a b = false.
Proof.
  intros H. unfold Rneqb. destruct (Req_dec_T a b); [reflexivity|contradiction].
Qed.

(** With the assertions compiled out both builders return their matrix
    whatever the bounds are. *)
Lemma frustum_unchecked (l r b t n f : R) :
  frustum false l r b t n f
  = Ret [ 2*n / (r - l); 0;             (r + l) / (r - l);  0;
          0;             2*n / (t - b); (t + b) / (t - b);  0;
          0;             0;             -(f + n) / (f - n); -2*f*n / (f - n);
          0;             0;             -1;                 0 ].
Proof. reflexivity. Qed.

Lemma ortho_unchecked (l r b t n f : R) :
  ortho false l r b t n f
  = Ret [ 2 / (r - l); 0;           0;            -(r + l) / (r - l);
          0;           2 / (t - b); 0;            -(t + b) / (t - b);
          0;           0;           -2 / (f - n); (f + n) / (f - n);
          0;           0;           0;            0 ].
Proof. reflexivity. Qed.

(** On proper bounds the assertions pass and the checked build returns
    what the unchecked one does. *)
Lemma frustum_checks_pass (checks : bool) (l r b t n f : R) :
  l <> r -> b <> t -> n <> f ->
  frustum checks l r b t n f = frustum false l r b t n f.
Proof.
  intros Hlr Hbt Hnf. unfold frustum, BOOST_ASSERT, ASSERT.
  rewrite (Rneqb_neq _ _ Hlr), (Rneqb_neq _ _ Hbt), (Rneqb_neq _ _ Hnf).
  destruct checks; reflexivity.
Qed.

Lemma ortho_checks_pass (checks : bool) (l r b t n f : R) :
  l <> r -> b <> t -> n <> f ->
  ortho checks l r b t n f = ortho false l r b t n f.
Proof.
  intros Hlr Hbt Hnf. unfold ortho, BOOST_ASSERT, ASSERT.
  rewrite (Rneqb_neq _ _ Hlr), (Rneqb_neq _ _ Hbt), (Rneqb_neq _ _ Hnf).
  destruct checks; reflexivity.
Qed.

(** The first assertion of a checked [frustum] fails on equal left and
    right bounds. *)
Lemma frustum_left_right (l r b t n f : R) :
  l = r -> frustum true l r b t n f = Abort "l != r" 11.
Proof.
  intros H. unfold frustum, BOOST_ASSERT, ASSERT. rewrite (Rneqb_eq _ _ H). reflexivity.
Qed.

(** On proper bounds [ortho] agrees with the reference in every entry of
    its first three rows but the translation of the depth row. *)
Lemma ortho_rows (checks : bool) (l r b t n f : R) :
  l <> r -> b <> t -> n <> f ->
  ortho checks l r b t n f
  = Ret (firstn 11 (glOrtho_rows l r b t n f)
         ++ [ (f + n) / (f - n); 0; 0; 0; 0 ]).
Proof.
  intros Hlr Hbt Hnf.
  rewrite ortho_checks_pass, ortho_unchecked by assumption.
  simpl. repeat (f_equal; try (field; lra)).
Qed.

End BuilderFacts.

(** C1.  On bounds with [l <> r], [b <> t] and [n <> f], [frustum]
    returns, in a checked build as in an unchecked one, the off-centre
    perspective matrix with rows [(2n/(r-l), 0, (r+l)/(r-l), 0)],
    [(0, 2n/(t-b), (t+b)/(t-b), 0)], [(0, 0, -(f+n)/(f-n), -2fn/(f-n))] and
    [(0, 0, -1, 0)]. *)
Theorem frustum_formula :
  forall (checks : bool) (l r b t n f : R),
    l <> r -> b <> t -> n <> f ->
    Transform.frustum checks l r b t n f
    = Core.Ret
        [ (2 * n / (r - l))%R; 0%R; ((r + l) / (r - l))%R; 0%R;
          0%R; (2 * n / (t - b))%R; ((t + b) / (t - b))%R; 0%R;
          0%R; 0%R; (- ((f + n) / (f - n)))%R; (- (2 * f * n / (f - n)))%R;
          0%R; 0%R; (- (1))%R; 0%R ].
Proof.
  intros checks l r b t n f Hlr Hbt Hnf.
  rewrite frustum_checks_pass, frustum_unchecked by assumption.
  repeat (f_equal; try (field; lra)).
Qed.

Lemma frustum_formula_witness :
  Transform.frustum true (-1) 1 (-1) 1 1 3
  = Core.Ret
      [ (2 * 1 / (1 - -1))%R; 0%R; ((1 + -1) / (1 - -1))%R; 0%R;
        0%R; (2 * 1 / (1 - -1))%R; ((1 + -1) / (1 - -1))%R; 0%R;
        0%R; 0%R; (- ((3 + 1) / (3 - 1)))%R; (- (2 * 3 * 1 / (3 - 1)))%R;
        0%R; 0%R; (- (1))%R; 0%R ].
Proof.
  apply (frustum_formula true (-1) 1 (-1) 1 1 3); lra.
Defined.

(** C2, evaluated at [ortho(-1, 1, -1, 1, 1, 3)].  The call returns a matrix
    whose last row is all zero and whose first three rows are those of the
    reference except for the translation of the depth row: the code has
    [(f+n)/(f-n) = 2] where the reference has [-(f+n)/(f-n) = -2]. *)
Theorem ortho_depth_translation_sign :
  exists m : Transform.Gl_Matrix,
    Transform.ortho true (-1) 1 (-1) 1 1 3 = Core.Ret m
    /\ skipn 12 m = [0%R; 0%R; 0%R; 0%R]
    /\ firstn 11 m = firstn 11 (Transform.glOrtho_rows (-1) 1 (-1) 1 1 3)
    /\ Transform.mat_at m 2 3 = 2%R
    /\ nth 11 (Transform.glOrtho_rows (-1) 1 (-1) 1 1 3) 0%R = (-2)%R
    /\ Transform.ortho true (-1) 1 (-1) 1 1 3
       <> Core.Ret (Transform.glOrtho_rows (-1) 1 (-1) 1 1 3
                    ++ [0%R; 0%R; 0%R; 0%R]).
Proof.
  eexists. split.
  { apply ortho_rows; lra. }
  repeat split.
  - unfold Transform.mat_at. simpl. field.
  - simpl. field.
  - rewrite ortho_rows by lra. intros E.
    apply (f_equal (fun o => match o with
                             | Core.Ret m => nth 11 m 0%R
                             | Core.Abort _ _ => 0%R
                             end)) in E.
    simpl in E. lra.
Qed.

(** C3.  For every field of view, aspect ratio, near and far distance (in
    particular for a field of view in (0, 180) degrees and a positive
    aspect), [perspective] is [frustum(-w, w, -h, h, zNear, zFar)] with
    [h = tan (radians (fov / 2)) * zNear] and [w = h * aspect], in a checked
    and in an unchecked build: it adds no check to those of [frustum]. *)
Theorem perspective_is_symmetric_frustum :
  forall (checks : bool) (fov aspect zNear zFar : R),
    let h := (tan (Transform.radians (fov / 2)) * zNear)%R in
    let w := (h * aspect)%R in
    Transform.perspective checks fov aspect zNear zFar
    = Transform.frustum checks (- w) w (- h) h zNear zFar.
Proof.
  intros checks fov aspect zNear zFar h w.
  unfold Transform.perspective, Transform.perspective_fh.
  subst w h. unfold Transform.radians, Transform.pi.
  replace (fov / 360 * PI)%R with (fov / 2 * PI / 180)%R by field.
  reflexivity.
Qed.

(** C8.  On bounds with [l = r], [b = t] or [n = f], a checked build of
    [frustum] and of [ortho] ends in the failed assertion, which names the
    first condition that fails and its line; an unchecked build returns the
    matrix of the formula, whose divisors [r - l], [t - b] or [f - n] are
    then zero. *)
Theorem degenerate_bounds_abort_when_checked :
  forall (l r b t n f : R),
    l = r \/ b = t \/ n = f ->
    (l = r ->
       Transform.frustum true l r b t n f = Core.Abort "l != r" 11
       /\ Transform.ortho true l r b t n f = Core.Abort "l != r" 26)
    /\ (l <> r -> b = t ->
       Transform.frustum true l r b t n f = Core.Abort "b != t" 12
       /\ Transform.ortho true l r b t n f = Core.Abort "b != t" 27)
    /\ (l <> r -> b <> t -> n = f ->
       Transform.frustum true l r b t n f = Core.Abort "n != f" 13
       /\ Transform.ortho true l r b t n f = Core.Abort "n != f" 28)
    /\ (exists (expr : string) (line : nat),
          Transform.frustum true l r b t n f = Core.Abort expr line)
    /\ (exists (expr : string) (line : nat),
          Transform.ortho true l r b t n f = Core.Abort expr line)
    /\ Transform.frustum false l r b t n f
       = Core.Ret
           [ (2*n / (r - l))%R; 0%R; ((r + l) / (r - l))%R; 0%R;
             0%R; (2*n / (t - b))%R; ((t + b) / (t - b))%R; 0%R;
             0%R; 0%R; (-(f + n) / (f - n))%R; (-2*f*n / (f - n))%R;
             0%R; 0%R; (-1)%R; 0%R ]
    /\ Transform.ortho false l r b t n f
       = Core.Ret
           [ (2 / (r - l))%R; 0%R; 0%R; (-(r + l) / (r - l))%R;
             0%R; (2 / (t - b))%R; 0%R; (-(t + b) / (t - b))%R;
             0%R; 0%R; (-2 / (f - n))%R; ((f + n) / (f - n))%R;
             0%R; 0%R; 0%R; 0%R ]
    /\ ((r - l = 0)%R \/ (t - b = 0)%R \/ (f - n = 0)%R).
Proof.
  intros l r b t n f Hdeg.
  assert (Hlr : l = r ->
            Transform.frustum true l r b t n f = Core.Abort "l != r" 11
            /\ Transform.ortho true l r b t n f = Core.Abort "l != r" 26).
  { intros H. unfold Transform.frustum, Transform.ortho, Transform.BOOST_ASSERT,
      Core.ASSERT.
    rewrite (Rneqb_eq _ _ H). split; reflexivity. }
  assert (Hbt : l <> r -> b = t ->
            Transform.frustum true l r b t n f = Core.Abort "b != t" 12
            /\ Transform.ortho true l r b t n f = Core.Abort "b != t" 27).
  { intros H1 H2. unfold Transform.frustum, Transform.ortho, Transform.BOOST_ASSERT,
      Core.ASSERT.
    rewrite (Rneqb_neq _ _ H1), (Rneqb_eq _ _ H2). split; reflexivity. }
  assert (Hnf : l <> r -> b <> t -> n = f ->
            Transform.frustum true l r b t n f = Core.Abort "n != f" 13
            /\ Transform.ortho true l r b t n f = Core.Abort "n != f" 28).
  { intros H1 H2 H3. unfold Transform.frustum, Transform.ortho, Transform.BOOST_ASSERT,
      Core.ASSERT.
    rewrite (Rneqb_neq _ _ H1), (Rneqb_neq _ _ H2), (Rneqb_eq _ _ H3).
    split; reflexivity. }
  assert (Hsome :
            (exists (expr : string) (line : nat),
                Transform.frustum true l r b t n f = Core.Abort expr line)
            /\ (exists (expr : string) (line : nat),
                Transform.ortho true l r b t n f = Core.Abort expr line)).
  { destruct (Req_dec_T l r) as [E1|N1].
    { destruct (Hlr E1) as [-> ->]. split; do 2 eexists; reflexivity. }
    destruct (Req_dec_T b t) as [E2|N2].
    { destruct (Hbt N1 E2) as [-> ->]. split; do 2 eexists; reflexivity. }
    assert (E3 : n = f) by (destruct Hdeg as [?|[?|?]]; [contradiction..|assumption]).
    destruct (Hnf N1 N2 E3) as [-> ->]. split; do 2 eexists; reflexivity. }
  destruct Hsome as [Hf Ho].
  repeat split; try assumption; try (intros; apply Hlr; assumption);
    try (intros; apply Hbt; assumption); try (intros; apply Hnf; assumption).
  destruct Hdeg as [H|[H|H]]; [left|right; left|right; right]; lra.
Qed.

Lemma degenerate_bounds_abort_when_checked_witness :
  Transform.frustum true 2 2 (-1) 1 1 3 = Core.Abort "l != r" 11
  /\ Transform.ortho true 2 2 (-1) 1 1 3 = Core.Abort "l != r" 26.
Proof.
  apply (proj1 (degenerate_bounds_abort_when_checked 2 2 (-1) 1 1 3
                  (or_introl eq_refl))).
  reflexivity.
Defined.

(** C9.  [translation d] is the identity matrix with the components of [d]
    in entries [3][0], [3][1] and [3][2]: every other entry is that of the
    identity.  The homogeneous origin, as a row vector times the matrix, is
    the homogeneous point of [d]. *)
Theorem translation_last_row :
  forall d : Transform.Vec3f,
    Transform.translation d
    = [ 1%R; 0%R; 0%R; 0%R;
        0%R; 1%R; 0%R; 0%R;
        0%R; 0%R; 1%R; 0%R;
        Transform.vx d; Transform.vy d; Transform.vz d; 1%R ]
    /\ (forall i j : nat, (i < 4)%nat -> (j < 4)%nat ->
          Transform.mat_at (Transform.translation d) i j
          = if Nat.eqb i 3 && Nat.ltb j 3
            then Transform.vec_at d j
            else Transform.mat_at Transform.unit i j)
    /\ Transform.row_times (Transform.point Transform.zero3)
                           (Transform.translation d)
       = Transform.point d.
Proof.
  intros d. split; [reflexivity|]. split.
  - intros i j Hi Hj.
    do 4 (destruct i as [|i]; [do 4 (destruct j as [|j]; [reflexivity|]); lia|]).
    lia.
  - unfold Transform.row_times, Transform.point. simpl.
    unfold Transform.mat_at. simpl.
    repeat (f_equal; try ring).
Qed.

(** C10.  With [v_fov = 0] or [z_near = 0] the half height and the half
    width computed by [perspective] are zero, the bounds handed to
    [frustum] satisfy [left = right] and [bottom = top], and a checked build
    ends in the assertion [l != r] of [frustum]; an unchecked build returns
    a matrix, [perspective] having no check of its own. *)
Theorem perspective_degenerate_aborts :
  forall (v_fov aspect z_near z_far : R),
    v_fov = 0%R \/ z_near = 0%R ->
    let fh := Transform.perspective_fh v_fov z_near in
    let fw := Transform.perspective_fw v_fov aspect z_near in
    fh = 0%R /\ fw = 0%R
    /\ (- fw)%R = fw /\ (- fh)%R = fh
    /\ Transform.perspective true v_fov aspect z_near z_far
       = Transform.frustum true (- fw) fw (- fh) fh z_near z_far
    /\ Transform.perspective true v_fov aspect z_near z_far
       = Core.Abort "l != r" 11
    /\ exists m : Transform.Gl_Matrix,
         Transform.perspective false v_fov aspect z_near z_far = Core.Ret m.
Proof.
  intros v_fov aspect z_near z_far Hdeg fh fw.
  assert (Hfh : fh = 0%R).
  { subst fh. unfold Transform.perspective_fh.
    destruct Hdeg as [->| ->].
    - replace (0 / 360 * Transform.pi)%R with 0%R by (unfold Rdiv; ring).
      rewrite tan_0. ring.
    - ring. }
  assert (Hfw : fw = 0%R).
  { subst fw. unfold Transform.perspective_fw. fold fh. rewrite Hfh. ring. }
  assert (Hcall : Transform.perspective true v_fov aspect z_near z_far
                  = Transform.frustum true (- fw) fw (- fh) fh z_near z_far)
    by reflexivity.
  repeat split; try assumption; try lra.
  - rewrite Hcall. apply frustum_left_right. lra.
  - eexists. reflexivity.
Qed.

Lemma perspective_degenerate_aborts_witness :
  Transform.perspective true 0 (4 / 3) 1 100 = Core.Abort "l != r" 11.
Proof.
  apply (perspective_degenerate_aborts 0 (4 / 3) 1 100 (or_introl eq_refl)).
Defined.

(** ** Rotations *)

Section RotationFacts.

Import Core Transform.
Local Open Scope R_scope.

Lemma norm_squared_pos (v : Vec3f) :
  v <> zero3 -> 0 < vx v * vx v + vy v * vy v + vz v * vz v.
Proof.
  intros Hv. destruct v as [x y z]; simpl.
  destruct (Rle_or_lt (x * x + y * y + z * z) 0) as [Hle|Hlt]; [|exact Hlt].
  exfalso. apply Hv. unfold zero3.
  assert (x = 0) by nra. assert (y = 0) by nra. assert (z = 0) by nra.
  subst. reflexivity.
Qed.

Lemma length3_nonzero (v : Vec3f) : v <> zero3 -> length3 v <> 0.
Proof.
  intros Hv. unfold length3.
  pose proof (sqrt_lt_R0 _ (norm_squared_pos v Hv)). lra.
Qed.

Lemma length3_squared (v : Vec3f) :
  length3 v * length3 v = vx v * vx v + vy v * vy v + vz v * vz v.
Proof.
  unfold length3. apply sqrt_sqrt. nra.
Qed.

(** A non-zero vector is normalised to a unit vector. *)
Lemma normalize_unit (v : Vec3f) :
  v <> zero3 ->
  vx (normalize v) * vx (normalize v)
  + vy (normalize v) * vy (normalize v)
  + vz (normalize v) * vz (normalize v) = 1.
Proof.
  intros Hv. pose proof (length3_nonzero v Hv) as HL.
  pose proof (length3_squared v) as HS.
  unfold normalize; simpl.
  set (L := length3 v) in *.
  replace (vx v / L * (vx v / L) + vy v / L * (vy v / L)
           + vz v / L * (vz v / L))
    with ((vx v * vx v + vy v * vy v + vz v * vz v) / (L * L))
    by (field; exact HL).
  rewrite <- HS. field. exact HL.
Qed.

Lemma sin_cos_unit (a : R) : sin a * sin a + cos a * cos a = 1.
Proof. pose proof (sin2_cos2 a) as H. unfold Rsqr in H. exact H. Qed.

Lemma rotation_rodrigues (axis : Vec3f) (angle : R) :
  rotation axis angle
  = rodrigues (vx (normalize axis)) (vy (normalize axis))
              (vz (normalize axis)) (cos angle) (sin angle).
Proof. reflexivity. Qed.

Lemma rodrigues_rows (x y z c s : R) :
  x * x + y * y + z * z = 1 -> s * s + c * c = 1 ->
  forall i j : nat, (i < 3)%nat -> (j < 3)%nat ->
    block_mul_transpose (rodrigues x y z c s) i j = kronecker i j.
Proof.
  intros Hu Hc i j Hi Hj.
  do 3 (destruct i as [|i];
        [do 3 (destruct j as [|j];
               [unfold block_mul_transpose, mat_at, kronecker; simpl; nsatz|]);
         lia|]).
  lia.
Qed.

Lemma rodrigues_columns (x y z c s : R) :
  x * x + y * y + z * z = 1 -> s * s + c * c = 1 ->
  forall i j : nat, (i < 3)%nat -> (j < 3)%nat ->
    block_transpose_mul (rodrigues x y z c s) i j = kronecker i j.
Proof.
  intros Hu Hc i j Hi Hj.
  do 3 (destruct i as [|i];
        [do 3 (destruct j as [|j];
               [unfold block_transpose_mul, mat_at, kronecker; simpl; nsatz|]);
         lia|]).
  lia.
Qed.

Lemma rodrigues_column_length (x y z c s : R) (v : Vec3f) :
  x * x + y * y + z * z = 1 -> s * s + c * c = 1 ->
  length3 (block_times_column (rodrigues x y z c s) v) = length3 v.
Proof.
  intros Hu Hc. unfold length3. f_equal.
  destruct v as [a b d]. unfold block_times_column, mat_at; simpl.
  nsatz.
Qed.

Lemma rodrigues_row_length (x y z c s : R) (v : Vec3f) :
  x * x + y * y + z * z = 1 -> s * s + c * c = 1 ->
  length3 (row_times_block v (rodrigues x y z c s)) = length3 v.
Proof.
  intros Hu Hc. unfold length3. f_equal.
  destruct v as [a b d]. unfold row_times_block, mat_at; simpl.
  nsatz.
Qed.

(** Half-angle form of the quaternion matrix: for a unit axis, the matrix
    of the canonical quaternion is the transposed matrix of the axis and
    angle. *)
Lemma quaternion_half_angle (x y z h : R) :
  x * x + y * y + z * z = 1 ->
  rotation_q (mkQuaternion (cos h) (sin h * x) (sin h * y) (sin h * z))
  = transpose (rodrigues x y z (cos (2 * h)) (sin (2 * h))).
Proof.
  intros Hu. rewrite cos_2a_sin, sin_2a.
  pose proof (sin_cos_unit h) as Hh.
  set (sh := sin h) in *. set (ch := cos h) in *.
  unfold rotation_q, transpose, rodrigues, mat_at; simpl.
  repeat (f_equal; try nsatz).
Qed.

End RotationFacts.

(** C4, evaluated at the quarter turn about the z axis.  The two overloads
    do not agree there: entry [0][1] is [-1] in the matrix of the axis and
    angle and [1] in the matrix of the canonical quaternion of the same axis
    and angle, so the matrices differ. *)
Lemma rotation_overloads_differ :
  Transform.mkVec3f 0 0 1 <> Transform.zero3
  /\ Transform.mat_at
       (Transform.rotation (Transform.mkVec3f 0 0 1) (PI / 2)) 0 1 = (-1)%R
  /\ Transform.mat_at
       (Transform.rotation_q
          (Transform.axis_angle_quaternion (Transform.mkVec3f 0 0 1) (PI / 2)))
       0 1 = 1%R
  /\ Transform.rotation (Transform.mkVec3f 0 0 1) (PI / 2)
     <> Transform.rotation_q
          (Transform.axis_angle_quaternion (Transform.mkVec3f 0 0 1) (PI / 2)).
Proof.
  assert (HL : Transform.length3 (Transform.mkVec3f 0 0 1) = 1%R).
  { unfold Transform.length3; simpl.
    replace (0 * 0 + 0 * 0 + 1 * 1)%R with 1%R by ring. apply sqrt_1. }
  assert (Ha : Transform.mat_at
                 (Transform.rotation (Transform.mkVec3f 0 0 1) (PI / 2)) 0 1
               = (-1)%R).
  { unfold Transform.rotation, Transform.normalize, Transform.mat_at.
    rewrite HL. simpl. rewrite sin_PI2, cos_PI2. field. }
  assert (Hq : Transform.mat_at
                 (Transform.rotation_q
                    (Transform.axis_angle_quaternion
                       (Transform.mkVec3f 0 0 1) (PI / 2))) 0 1
               = 1%R).
  { unfold Transform.rotation_q, Transform.axis_angle_quaternion,
      Transform.normalize, Transform.mat_at.
    rewrite HL. simpl.
    pose proof (sin_2a (PI / 2 / 2)) as H2.
    replace (2 * (PI / 2 / 2))%R with (PI / 2)%R in H2 by field.
    rewrite sin_PI2 in H2.
    set (sh := sin (PI / 2 / 2)) in *. set (ch := cos (PI / 2 / 2)) in *.
    lra. }
  repeat split; try assumption.
  - intros E. injection E as E. lra.
  - intros E. rewrite E, Hq in Ha. lra.
Qed.

(** C5.  For a non-zero axis, of unit length or not, and every angle, the
    upper-left 3x3 block [B] of [rotation(axis, angle)] is orthogonal,
    [B * B^T] and [B^T * B] being the identity, and the block applied to a
    vector, on either side, returns a vector of the same length. *)
Theorem rotation_orthogonal :
  forall (axis : Transform.Vec3f) (angle : R),
    axis <> Transform.zero3 ->
    (forall i j : nat, (i < 3)%nat -> (j < 3)%nat ->
        Transform.block_mul_transpose (Transform.rotation axis angle) i j
        = Transform.kronecker i j)
    /\ (forall i j : nat, (i < 3)%nat -> (j < 3)%nat ->
        Transform.block_transpose_mul (Transform.rotation axis angle) i j
        = Transform.kronecker i j)
    /\ (forall v : Transform.Vec3f,
        Transform.length3
          (Transform.block_times_column (Transform.rotation axis angle) v)
        = Transform.length3 v)
    /\ (forall v : Transform.Vec3f,
        Transform.length3
          (Transform.row_times_block v (Transform.rotation axis angle))
        = Transform.length3 v).
Proof.
  intros axis angle Haxis.
  pose proof (normalize_unit axis Haxis) as Hu.
  pose proof (sin_cos_unit angle) as Hc.
  rewrite rotation_rodrigues.
  repeat split; intros.
  - apply rodrigues_rows; assumption.
  - apply rodrigues_columns; assumption.
  - apply rodrigues_column_length; assumption.
  - apply rodrigues_row_length; assumption.
Qed.

Lemma rotation_orthogonal_witness :
  Transform.length3
    (Transform.block_times_column
       (Transform.rotation (Transform.mkVec3f 3 0 4) (PI / 3))
       (Transform.mkVec3f 1 2 2))
  = Transform.length3 (Transform.mkVec3f 1 2 2).
Proof.
  apply (rotation_orthogonal (Transform.mkVec3f 3 0 4) (PI / 3)).
  intros E. injection E as E1 E2. lra.
Defined.

(** * Further properties *)

(** ** The string hasher *)

Section HashMore.

Import Core.
Local Open Scope Z_scope.

Lemma lxor_mod_pow2 (a b n : Z) :
  0 <= n -> Z.lxor a b mod 2 ^ n = Z.lxor (a mod 2 ^ n) (b mod 2 ^ n).
Proof.
  intros Hn. apply Z.bits_inj'. intros i Hi.
  rewrite Z.lxor_spec, !Z.testbit_mod_pow2, Z.lxor_spec by assumption.
  destruct (i <? n); reflexivity.
Qed.

Lemma mod_pow2_nested (a lo hi : Z) :
  0 <= lo <= hi -> (a mod 2 ^ hi) mod 2 ^ lo = a mod 2 ^ lo.
Proof.
  intros H. apply Z.mod_mod_divide.
  exists (2 ^ (hi - lo)). rewrite <- Z.pow_add_r by lia. f_equal; lia.
Qed.

(** Narrowing a digest step: the low [lo] bits of a step taken in [hi] bits
    are the step taken in [lo] bits on the low bits of the running value. *)
Lemma xor_mul_narrow (lo hi h c : Z) :
  0 <= lo <= hi ->
  xor_mul hi h c mod 2 ^ lo = xor_mul lo (h mod 2 ^ lo) c.
Proof.
  intros H. unfold xor_mul, to_size_t.
  rewrite mod_pow2_nested by assumption.
  rewrite Z.mul_mod by (apply Z.pow_nonzero; lia).
  rewrite lxor_mod_pow2, !mod_pow2_nested by lia.
  symmetry.
  rewrite Z.mul_mod by (apply Z.pow_nonzero; lia).
  rewrite lxor_mod_pow2, !Z.mod_mod by (try apply Z.pow_nonzero; lia).
  reflexivity.
Qed.

End HashMore.

(** X1.  Prepending a character to an array extends the digest by one step:
    [const_hash] of [c :: s] is the digest of [s], xored with [c] and
    multiplied by 16777619.  Both digests exist. *)
Theorem const_hash_cons :
  forall (size_bits c : Z) (s : list Z),
    exists h : Z,
      Core.const_hash size_bits s = Some h
      /\ Core.const_hash size_bits (c :: s)
         = Some (Core.xor_mul size_bits h c).
Proof.
  intros w c s. eexists. split.
  - apply const_hash_fold_right.
  - rewrite const_hash_fold_right. reflexivity.
Qed.

(** X3.  Digests of different widths agree on their low bits: for
    [0 <= lo <= hi], the digest computed with a [size_t] of [lo] bits is the
    digest computed with [hi] bits, reduced modulo [2 ^ lo]. *)
Theorem const_hash_narrow :
  forall (lo hi : Z) (s : list Z) (h : Z),
    (0 <= lo <= hi)%Z ->
    Core.const_hash hi s = Some h ->
    Core.const_hash lo s = Some (h mod 2 ^ lo)%Z.
Proof.
  intros lo hi s h Hw E.
  rewrite const_hash_fold_right in E. injection E as <-.
  rewrite const_hash_fold_right. f_equal.
  induction s as [|c s IH]; simpl.
  - unfold Core.to_size_t. symmetry. apply mod_pow2_nested; exact Hw.
  - rewrite xor_mul_narrow by exact Hw. rewrite <- IH. reflexivity.
Qed.

Lemma const_hash_narrow_witness :
  Core.const_hash 32 [0%Z] = Some (36342608889142559 mod 2 ^ 32)%Z.
Proof.
  apply (const_hash_narrow 32 64 [0%Z] 36342608889142559 ltac:(lia)).
  reflexivity.
Defined.

(** ** Projections *)

(** X4.  On proper bounds the matrix of [frustum], applied to homogeneous
    column vectors, sends the corners [(l, b, -n)] and [(r, t, -n)] of the
    near rectangle to clip coordinates [(-n, -n, -n, n)] and [(n, n, -n, n)],
    every point of the far plane [z = -f] to depth [f] with [w = f], and
    every point to [w = -z]: after the division by [w] the near corners are
    [(-1, -1, -1)] and [(1, 1, -1)] and the far plane has depth [1]. *)
Theorem frustum_clip_coordinates :
  forall (checks : bool) (l r b t n f : R),
    l <> r -> b <> t -> n <> f ->
    exists m : Transform.Gl_Matrix,
      Transform.frustum checks l r b t n f = Core.Ret m
      /\ Transform.times_column m [l; b; (- n)%R; 1%R]
         = [(- n)%R; (- n)%R; (- n)%R; n]
      /\ Transform.times_column m [r; t; (- n)%R; 1%R]
         = [n; n; (- n)%R; n]
      /\ (forall x y : R,
            nth 2 (Transform.times_column m [x; y; (- f)%R; 1%R]) 0%R = f)
      /\ (forall x y z : R,
            nth 3 (Transform.times_column m [x; y; z; 1%R]) 0%R = (- z)%R).
Proof.
  intros checks l r b t n f Hlr Hbt Hnf.
  eexists. split.
  { rewrite frustum_checks_pass by assumption. apply frustum_unchecked. }
  unfold Transform.times_column, Transform.mat_at. simpl.
  repeat split; intros; repeat (f_equal; try (field; lra)).
Qed.

Lemma frustum_clip_coordinates_witness :
  exists m : Transform.Gl_Matrix,
    Transform.frustum true (-2) 2 (-1) 1 1 10 = Core.Ret m
    /\ Transform.times_column m [(-2)%R; (-1)%R; (- (1))%R; 1%R]
       = [(- (1))%R; (- (1))%R; (- (1))%R; 1%R]
    /\ Transform.times_column m [2%R; 1%R; (- (1))%R; 1%R]
       = [1%R; 1%R; (- (1))%R; 1%R]
    /\ (forall x y : R,
          nth 2 (Transform.times_column m [x; y; (- (10))%R; 1%R]) 0%R = 10%R)
    /\ (forall x y z : R,
          nth 3 (Transform.times_column m [x; y; z; 1%R]) 0%R = (- z)%R).
Proof.
  apply (frustum_clip_coordinates true (-2) 2 (-1) 1 1 10); lra.
Defined.

(** X5.  On proper bounds the matrix of [ortho], applied to homogeneous
    column vectors, sends the planes [x = l], [x = r], [y = b], [y = t] to
    the coordinates [-1], [1], [-1], [1], and the planes [z = n] and
    [z = f] to the depths [1] and [-1]. *)
Theorem ortho_box_coordinates :
  forall (checks : bool) (l r b t n f : R),
    l <> r -> b <> t -> n <> f ->
    exists m : Transform.Gl_Matrix,
      Transform.ortho checks l r b t n f = Core.Ret m
      /\ (forall y z : R,
            nth 0 (Transform.times_column m [l; y; z; 1%R]) 0%R = (-1)%R
            /\ nth 0 (Transform.times_column m [r; y; z; 1%R]) 0%R = 1%R)
      /\ (forall x z : R,
            nth 1 (Transform.times_column m [x; b; z; 1%R]) 0%R = (-1)%R
            /\ nth 1 (Transform.times_column m [x; t; z; 1%R]) 0%R = 1%R)
      /\ (forall x y : R,
            nth 2 (Transform.times_column m [x; y; n; 1%R]) 0%R = 1%R
            /\ nth 2 (Transform.times_column m [x; y; f; 1%R]) 0%R = (-1)%R).
Proof.
  intros checks l r b t n f Hlr Hbt Hnf.
  eexists. split.
  { rewrite ortho_checks_pass by assumption. apply ortho_unchecked. }
  unfold Transform.times_column, Transform.mat_at. simpl.
  repeat split; intros; field; lra.
Qed.

Lemma ortho_box_coordinates_witness :
  exists m : Transform.Gl_Matrix,
    Transform.ortho true 0 4 0 3 1 5 = Core.Ret m
    /\ (forall y z : R,
          nth 0 (Transform.times_column m [0%R; y; z; 1%R]) 0%R = (-1)%R
          /\ nth 0 (Transform.times_column m [4%R; y; z; 1%R]) 0%R = 1%R)
    /\ (forall x z : R,
          nth 1 (Transform.times_column m [x; 0%R; z; 1%R]) 0%R = (-1)%R
          /\ nth 1 (Transform.times_column m [x; 3%R; z; 1%R]) 0%R = 1%R)
    /\ (forall x y : R,
          nth 2 (Transform.times_column m [x; y; 1%R; 1%R]) 0%R = 1%R
          /\ nth 2 (Transform.times_column m [x; y; 5%R; 1%R]) 0%R = (-1)%R).
Proof.
  apply (ortho_box_coordinates true 0 4 0 3 1 5); lra.
Defined.

(** X6.  Whatever the bounds and the build, a matrix returned by [ortho]
    sends every homogeneous column vector to [w = 0], and no matrix is a
    right inverse of it: entry [3][3] of every product [m * x] is [0]. *)
Theorem ortho_never_invertible :
  forall (checks : bool) (l r b t n f : R) (m : Transform.Gl_Matrix),
    Transform.ortho checks l r b t n f = Core.Ret m ->
    (forall p : list R, nth 3 (Transform.times_column m p) 0%R = 0%R)
    /\ (forall x : Transform.Gl_Matrix,
          Transform.mat_at (Transform.mat_mul m x) 3 3 = 0%R
          /\ Transform.mat_mul m x <> Transform.unit).
Proof.
  intros checks l r b t n f m E.
  assert (Em : m = [ (2 / (r - l))%R; 0%R; 0%R; (-(r + l) / (r - l))%R;
                     0%R; (2 / (t - b))%R; 0%R; (-(t + b) / (t - b))%R;
                     0%R; 0%R; (-2 / (f - n))%R; ((f + n) / (f - n))%R;
                     0%R; 0%R; 0%R; 0%R ]).
  { unfold Transform.ortho, Transform.BOOST_ASSERT, Core.ASSERT in E.
    destruct checks; [|injection E as <-; reflexivity].
    destruct (Transform.Rneqb l r); [|discriminate E].
    destruct (Transform.Rneqb b t); [|discriminate E].
    destruct (Transform.Rneqb n f); [|discriminate E].
    injection E as <-; reflexivity. }
  subst m. split.
  - intros p. unfold Transform.times_column, Transform.mat_at. simpl. ring.
  - intros x.
    assert (H33 : Transform.mat_at
                    (Transform.mat_mul
                       [ (2 / (r - l))%R; 0%R; 0%R; (-(r + l) / (r - l))%R;
                         0%R; (2 / (t - b))%R; 0%R; (-(t + b) / (t - b))%R;
                         0%R; 0%R; (-2 / (f - n))%R; ((f + n) / (f - n))%R;
                         0%R; 0%R; 0%R; 0%R ] x) 3 3 = 0%R).
    { unfold Transform.mat_mul, Transform.mat_at. simpl. ring. }
    split; [exact H33|].
    intros Eu. rewrite Eu in H33.
    unfold Transform.mat_at, Transform.unit in H33. simpl in H33. lra.
Qed.

Lemma ortho_never_invertible_witness :
  Transform.mat_at
    (Transform.mat_mul
       [ (2 / (4 - 0))%R; 0%R; 0%R; (-(4 + 0) / (4 - 0))%R;
         0%R; (2 / (3 - 0))%R; 0%R; (-(3 + 0) / (3 - 0))%R;
         0%R; 0%R; (-2 / (5 - 1))%R; ((5 + 1) / (5 - 1))%R;
         0%R; 0%R; 0%R; 0%R ] Transform.unit) 3 3 = 0%R.
Proof.
  apply (ortho_never_invertible false 0 4 0 3 1 5 _ eq_refl).
Defined.





(** ** Translations *)

Lemma translation_entries (d : Transform.Vec3f) :
  Transform.translation d
  = [ 1%R; 0%R; 0%R; 0%R;
      0%R; 1%R; 0%R; 0%R;
      0%R; 0%R; 1%R; 0%R;
      Transform.vx d; Transform.vy d; Transform.vz d; 1%R ].
Proof. reflexivity. Qed.

(** X9.  [translation d], applied to the homogeneous row vector of any
    position [p], gives the homogeneous row vector of [p + d]. *)
Theorem translation_moves_points :
  forall p d : Transform.Vec3f,
    Transform.row_times (Transform.point p) (Transform.translation d)
    = Transform.point (Transform.add3 p d).
Proof.
  intros [px py pz] [dx dy dz].
  unfold Transform.row_times, Transform.point, Transform.add3,
    Transform.mat_at. simpl.
  repeat (apply f_equal2; [ring|]). reflexivity.
Qed.

(** X10.  The product of two translation matrices is the translation by the
    sum of the two offsets, in either order. *)
Theorem translation_composes :
  forall a b : Transform.Vec3f,
    Transform.mat_mul (Transform.translation a) (Transform.translation b)
    = Transform.translation (Transform.add3 a b)
    /\ Transform.mat_mul (Transform.translation b) (Transform.translation a)
       = Transform.translation (Transform.add3 a b).
Proof.
  intros [ax ay az] [bx b_y bz].
  rewrite !translation_entries.
  unfold Transform.mat_mul, Transform.add3, Transform.mat_at. simpl.
  split; repeat (apply f_equal2; [ring|]); reflexivity.
Qed.

(** X11.  The translation by the opposite offset is the inverse matrix: the
    product with it, on either side, is the identity. *)
Theorem translation_inverse :
  forall d : Transform.Vec3f,
    Transform.mat_mul (Transform.translation d)
                      (Transform.translation (Transform.opp3 d))
    = Transform.unit
    /\ Transform.mat_mul (Transform.translation (Transform.opp3 d))
                         (Transform.translation d)
       = Transform.unit.
Proof.
  intros [dx dy dz].
  rewrite !translation_entries.
  unfold Transform.mat_mul, Transform.opp3, Transform.unit, Transform.mat_at.
  simpl.
  split; repeat (apply f_equal2; [ring|]); reflexivity.
Qed.

(** ** Rotations about an axis *)

Section RotationMore.

Import Core Transform.
Local Open Scope R_scope.

Lemma rodrigues_transpose (x y z c s : R) :
  transpose (rodrigues x y z c s) = rodrigues x y z c (- s).
Proof.
  unfold transpose, rodrigues, mat_at. simpl.
  repeat (apply f_equal2; [ring|]). reflexivity.
Qed.

Lemma rodrigues_fixes_axis (x y z c s k : R) :
  x * x + y * y + z * z = 1 ->
  block_times_column (rodrigues x y z c s) (mkVec3f (k * x) (k * y) (k * z))
  = mkVec3f (k * x) (k * y) (k * z)
  /\ row_times_block (mkVec3f (k * x) (k * y) (k * z)) (rodrigues x y z c s)
     = mkVec3f (k * x) (k * y) (k * z).
Proof.
  intros Hu.
  unfold block_times_column, row_times_block, rodrigues, mat_at. simpl.
  split; f_equal; nsatz.
Qed.

Lemma rodrigues_product (x y z c1 s1 c2 s2 : R) :
  x * x + y * y + z * z = 1 ->
  mat_mul (rodrigues x y z c1 s1) (rodrigues x y z c2 s2)
  = rodrigues x y z (c1 * c2 - s1 * s2) (s1 * c2 + c1 * s2).
Proof.
  intros Hu.
  unfold mat_mul, rodrigues, mat_at. simpl.
  repeat (apply f_equal2; [nsatz|]). reflexivity.
Qed.

Lemma rodrigues_det (x y z c s : R) :
  x * x + y * y + z * z = 1 -> s * s + c * c = 1 ->
  block_det (rodrigues x y z c s) = 1.
Proof.
  intros Hu Hc. unfold block_det, rodrigues, mat_at. simpl. nsatz.
Qed.

Lemma scaled_by_length (v : Vec3f) :
  v <> zero3 -> v = scale3 (length3 v) (normalize v).
Proof.
  intros Hv. pose proof (length3_nonzero v Hv) as HL.
  destruct v as [x y z]. unfold scale3, normalize. simpl vx; simpl vy; simpl vz.
  set (L := length3 {| vx := x; vy := y; vz := z |}) in *.
  f_equal; field; exact HL.
Qed.

Lemma length3_scale (k : R) (v : Vec3f) :
  0 <= k -> length3 (scale3 k v) = k * length3 v.
Proof.
  intros Hk. destruct v as [x y z]. unfold length3, scale3. simpl.
  replace (k * x * (k * x) + k * y * (k * y) + k * z * (k * z))
    with ((k * k) * (x * x + y * y + z * z)) by ring.
  rewrite sqrt_mult by nra.
  rewrite sqrt_square by exact Hk. reflexivity.
Qed.

Lemma normalize_scale (k : R) (v : Vec3f) :
  0 < k -> v <> zero3 -> normalize (scale3 k v) = normalize v.
Proof.
  intros Hk Hv. pose proof (length3_nonzero v Hv) as HL.
  unfold normalize. rewrite length3_scale by lra.
  destruct v as [x y z]. simpl vx; simpl vy; simpl vz.
  set (L := length3 {| vx := x; vy := y; vz := z |}) in *.
  f_equal; field; split; lra.
Qed.

Lemma length3_opp (v : Vec3f) : length3 (opp3 v) = length3 v.
Proof.
  destruct v as [x y z]. unfold length3, opp3. simpl. f_equal. ring.
Qed.

End RotationMore.

(** X12.  The rotation about a non-zero axis leaves the axis where it is:
    the upper-left block applied to [axis], on either side, is [axis]. *)
Theorem rotation_fixes_axis :
  forall (axis : Transform.Vec3f) (angle : R),
    axis <> Transform.zero3 ->
    Transform.block_times_column (Transform.rotation axis angle) axis = axis
    /\ Transform.row_times_block axis (Transform.rotation axis angle) = axis.
Proof.
  intros axis angle Haxis.
  pose proof (normalize_unit axis Haxis) as Hu.
  pose proof (scaled_by_length axis Haxis) as Hs.
  rewrite rotation_rodrigues.
  destruct (rodrigues_fixes_axis _ _ _ (cos angle) (sin angle)
              (Transform.length3 axis) Hu) as [Hc Hr].
  unfold Transform.scale3 in Hs.
  rewrite <- Hs in Hc, Hr. split; assumption.
Qed.

Lemma rotation_fixes_axis_witness :
  Transform.block_times_column
    (Transform.rotation (Transform.mkVec3f 1 2 2) 1) (Transform.mkVec3f 1 2 2)
  = Transform.mkVec3f 1 2 2.
Proof.
  apply (rotation_fixes_axis (Transform.mkVec3f 1 2 2) 1).
  intros E. injection E as E1 E2 E3. lra.
Defined.

(** X13.  The rotation by the angle [0] about a non-zero axis is the
    identity matrix. *)
Theorem rotation_zero_angle :
  forall axis : Transform.Vec3f,
    axis <> Transform.zero3 ->
    Transform.rotation axis 0 = Transform.unit.
Proof.
  intros axis _. rewrite rotation_rodrigues, cos_0, sin_0.
  unfold Transform.rodrigues, Transform.unit.
  repeat (apply f_equal2; [ring|]). reflexivity.
Qed.

Lemma rotation_zero_angle_witness :
  Transform.rotation (Transform.mkVec3f 1 1 0) 0 = Transform.unit.
Proof.
  apply (rotation_zero_angle (Transform.mkVec3f 1 1 0)).
  intros E. injection E as E1 E2. lra.
Defined.

(** X14.  For a non-zero axis the rotation by the opposite angle is the
    transposed matrix. *)
Theorem rotation_opposite_angle :
  forall (axis : Transform.Vec3f) (angle : R),
    axis <> Transform.zero3 ->
    Transform.rotation axis (- angle)
    = Transform.transpose (Transform.rotation axis angle).
Proof.
  intros axis angle _.
  rewrite !rotation_rodrigues, rodrigues_transpose, cos_neg, sin_neg.
  reflexivity.
Qed.

Lemma rotation_opposite_angle_witness :
  Transform.rotation (Transform.mkVec3f 1 1 0) (- (2))
  = Transform.transpose (Transform.rotation (Transform.mkVec3f 1 1 0) 2).
Proof.
  apply (rotation_opposite_angle (Transform.mkVec3f 1 1 0) 2).
  intros E. injection E as E1 E2. lra.
Defined.

(** X15.  Rotations about the same non-zero axis compose by adding their
    angles: the product of the two matrices is the rotation by the sum. *)
Theorem rotation_composes :
  forall (axis : Transform.Vec3f) (a b : R),
    axis <> Transform.zero3 ->
    Transform.mat_mul (Transform.rotation axis a) (Transform.rotation axis b)
    = Transform.rotation axis (a + b).
Proof.
  intros axis a b Haxis.
  rewrite !rotation_rodrigues, cos_plus, sin_plus.
  apply rodrigues_product. apply normalize_unit. exact Haxis.
Qed.

Lemma rotation_composes_witness :
  Transform.mat_mul (Transform.rotation (Transform.mkVec3f 0 3 4) 1)
                    (Transform.rotation (Transform.mkVec3f 0 3 4) 2)
  = Transform.rotation (Transform.mkVec3f 0 3 4) (1 + 2).
Proof.
  apply (rotation_composes (Transform.mkVec3f 0 3 4) 1 2).
  intros E. injection E as E1 E2. lra.
Defined.

(** X16.  The matrix depends on the direction of the axis only: a non-zero
    axis and any positive multiple of it give the same rotation. *)
Theorem rotation_axis_scale :
  forall (axis : Transform.Vec3f) (k angle : R),
    (0 < k)%R -> axis <> Transform.zero3 ->
    Transform.rotation (Transform.scale3 k axis) angle
    = Transform.rotation axis angle.
Proof.
  intros axis k angle Hk Haxis.
  rewrite !rotation_rodrigues, normalize_scale by assumption.
  reflexivity.
Qed.

Lemma rotation_axis_scale_witness :
  Transform.rotation (Transform.scale3 5 (Transform.mkVec3f 1 0 0)) 1
  = Transform.rotation (Transform.mkVec3f 1 0 0) 1.
Proof.
  apply (rotation_axis_scale (Transform.mkVec3f 1 0 0) 5 1).
  - lra.
  - intros E. injection E as E1. lra.
Defined.

(** X17.  The rotation about the opposite of a non-zero axis is the rotation
    about the axis by the opposite angle. *)
Theorem rotation_opposite_axis :
  forall (axis : Transform.Vec3f) (angle : R),
    axis <> Transform.zero3 ->
    Transform.rotation (Transform.opp3 axis) angle
    = Transform.rotation axis (- angle).
Proof.
  intros axis angle _.
  rewrite !rotation_rodrigues, cos_neg, sin_neg.
  unfold Transform.normalize. rewrite length3_opp.
  destruct axis as [x y z]. unfold Transform.opp3. simpl.
  set (L := Transform.length3 _).
  unfold Transform.rodrigues.
  repeat (apply f_equal2; [unfold Rdiv; ring|]). reflexivity.
Qed.

Lemma rotation_opposite_axis_witness :
  Transform.rotation (Transform.opp3 (Transform.mkVec3f 1 1 0)) 2
  = Transform.rotation (Transform.mkVec3f 1 1 0) (- (2)).
Proof.
  apply (rotation_opposite_axis (Transform.mkVec3f 1 1 0) 2).
  intros E. injection E as E1 E2. lra.
Defined.

(** X18.  For a non-zero axis the upper-left block has determinant [1]: the
    matrix is a rotation and not a reflection. *)
Theorem rotation_determinant :
  forall (axis : Transform.Vec3f) (angle : R),
    axis <> Transform.zero3 ->
    Transform.block_det (Transform.rotation axis angle) = 1%R.
Proof.
  intros axis angle Haxis.
  rewrite rotation_rodrigues.
  apply rodrigues_det.
  - apply normalize_unit. exact Haxis.
  - apply sin_cos_unit.
Qed.

Lemma rotation_determinant_witness :
  Transform.block_det (Transform.rotation (Transform.mkVec3f 0 0 2) 1) = 1%R.
Proof.
  apply (rotation_determinant (Transform.mkVec3f 0 0 2) 1).
  intros E. injection E as E. lra.
Defined.

(** X19.  For a non-zero axis, [rotation(axis, angle)] is the matrix that
    the quaternion overload builds from the canonical quaternion of the
    same axis and the opposite angle. *)
Theorem rotation_as_quaternion_rotation :
  forall (axis : Transform.Vec3f) (angle : R),
    axis <> Transform.zero3 ->
    Transform.rotation axis angle
    = Transform.rotation_q (Transform.axis_angle_quaternion axis (- angle)).
Proof.
  intros axis angle Haxis.
  unfold Transform.axis_angle_quaternion.
  rewrite quaternion_half_angle by (apply normalize_unit; exact Haxis).
  rewrite rodrigues_transpose.
  replace (2 * (- angle / 2))%R with (- angle)%R by field.
  rewrite cos_neg, sin_neg, Ropp_involutive.
  apply rotation_rodrigues.
Qed.

Lemma rotation_as_quaternion_rotation_witness :
  Transform.rotation (Transform.mkVec3f 0 0 2) 1
  = Transform.rotation_q
      (Transform.axis_angle_quaternion (Transform.mkVec3f 0 0 2) (- (1))).
Proof.
  apply (rotation_as_quaternion_rotation (Transform.mkVec3f 0 0 2) 1).
  intros E. injection E as E. lra.
Defined.

(** ** Rotations from a quaternion *)

Section QuaternionMore.

Import Core Transform.
Local Open Scope R_scope.

(** The squared length of each row of the upper-left block, for any
    quaternion: it is [1] up to a multiple of [norm2_q q - 1]. *)
Lemma quaternion_row_lengths (q : Quaternion) :
  block_mul_transpose (rotation_q q) 0 0
  = 1 + 4 * (q2 q * q2 q + q3 q * q3 q) * (norm2_q q - 1)
  /\ block_mul_transpose (rotation_q q) 1 1
     = 1 + 4 * (q1 q * q1 q + q3 q * q3 q) * (norm2_q q - 1)
  /\ block_mul_transpose (rotation_q q) 2 2
     = 1 + 4 * (q1 q * q1 q + q2 q * q2 q) * (norm2_q q - 1).
Proof.
  destruct q as [w x y z].
  unfold block_mul_transpose, rotation_q, norm2_q, mat_at. simpl.
  repeat split; ring.
Qed.

Lemma quaternion_rows (q : Quaternion) :
  norm2_q q = 1 ->
  forall i j : nat, (i < 3)%nat -> (j < 3)%nat ->
    block_mul_transpose (rotation_q q) i j = kronecker i j.
Proof.
  destruct q as [w x y z]. unfold norm2_q. simpl. intros Hq i j Hi Hj.
  do 3 (destruct i as [|i];
        [do 3 (destruct j as [|j];
               [unfold block_mul_transpose, rotation_q, mat_at, kronecker;
                simpl; nsatz|]);
         lia|]).
  lia.
Qed.

Lemma quaternion_columns (q : Quaternion) :
  norm2_q q = 1 ->
  forall i j : nat, (i < 3)%nat -> (j < 3)%nat ->
    block_transpose_mul (rotation_q q) i j = kronecker i j.
Proof.
  destruct q as [w x y z]. unfold norm2_q. simpl. intros Hq i j Hi Hj.
  do 3 (destruct i as [|i];
        [do 3 (destruct j as [|j];
               [unfold block_transpose_mul, rotation_q, mat_at, kronecker;
                simpl; nsatz|]);
         lia|]).
  lia.
Qed.

Lemma quaternion_length (q : Quaternion) (v : Vec3f) :
  norm2_q q = 1 ->
  length3 (block_times_column (rotation_q q) v) = length3 v
  /\ length3 (row_times_block v (rotation_q q)) = length3 v.
Proof.
  destruct q as [w x y z]. destruct v as [a b d].
  unfold norm2_q. simpl. intros Hq.
  unfold length3, block_times_column, row_times_block, rotation_q, mat_at.
  simpl. split; f_equal; nsatz.
Qed.

Lemma quaternion_det (q : Quaternion) :
  norm2_q q = 1 -> block_det (rotation_q q) = 1.
Proof.
  destruct q as [w x y z]. unfold norm2_q. simpl. intros Hq.
  unfold block_det, rotation_q, mat_at. simpl. nsatz.
Qed.

End QuaternionMore.

(** X20.  For a quaternion of norm [1] the matrix of [rotation(q)] is a
    rotation: its upper-left block [B] satisfies [B * B^T = B^T * B = I],
    has determinant [1], and applied to a vector on either side returns a
    vector of the same length. *)
Theorem quaternion_rotation_orthogonal :
  forall q : Transform.Quaternion,
    Transform.norm2_q q = 1%R ->
    (forall i j : nat, (i < 3)%nat -> (j < 3)%nat ->
        Transform.block_mul_transpose (Transform.rotation_q q) i j
        = Transform.kronecker i j)
    /\ (forall i j : nat, (i < 3)%nat -> (j < 3)%nat ->
        Transform.block_transpose_mul (Transform.rotation_q q) i j
        = Transform.kronecker i j)
    /\ Transform.block_det (Transform.rotation_q q) = 1%R
    /\ (forall v : Transform.Vec3f,
        Transform.length3
          (Transform.block_times_column (Transform.rotation_q q) v)
        = Transform.length3 v
        /\ Transform.length3
             (Transform.row_times_block v (Transform.rotation_q q))
           = Transform.length3 v).
Proof.
  intros q Hq. repeat split.
  - apply quaternion_rows; assumption.
  - apply quaternion_columns; assumption.
  - apply quaternion_det; assumption.
  - apply quaternion_length; assumption.
  - apply quaternion_length; assumption.
Qed.

Lemma quaternion_rotation_orthogonal_witness :
  Transform.block_det
    (Transform.rotation_q (Transform.mkQuaternion 0 (3 / 5) 0 (4 / 5))) = 1%R.
Proof.
  apply (quaternion_rotation_orthogonal
           (Transform.mkQuaternion 0 (3 / 5) 0 (4 / 5))).
  unfold Transform.norm2_q. simpl. field.
Defined.

(** X21.  [rotation(q)] does not normalise: for a quaternion whose vector
    part is not zero, the upper-left block is orthogonal exactly when the
    quaternion has norm [1]. *)
Theorem quaternion_rotation_needs_unit :
  forall q : Transform.Quaternion,
    (Transform.q1 q <> 0%R \/ Transform.q2 q <> 0%R \/ Transform.q3 q <> 0%R) ->
    ((forall i j : nat, (i < 3)%nat -> (j < 3)%nat ->
         Transform.block_mul_transpose (Transform.rotation_q q) i j
         = Transform.kronecker i j)
     <-> Transform.norm2_q q = 1%R).
Proof.
  intros q Hv. split; [|apply quaternion_rows].
  intros Horth.
  destruct (quaternion_row_lengths q) as (H0 & H1 & H2).
  rewrite (Horth 0%nat 0%nat) in H0 by lia.
  rewrite (Horth 1%nat 1%nat) in H1 by lia.
  rewrite (Horth 2%nat 2%nat) in H2 by lia.
  unfold Transform.kronecker in H0, H1, H2. simpl in H0, H1, H2.
  set (N := Transform.norm2_q q) in *.
  set (x := Transform.q1 q) in *. set (y := Transform.q2 q) in *.
  set (z := Transform.q3 q) in *.
  assert (Hcases : (0 < y * y + z * z \/ 0 < x * x + z * z
                    \/ 0 < x * x + y * y)%R).
  { destruct Hv as [H|[H|H]].
    - right; left. nra.
    - left. nra.
    - left. nra. }
  destruct Hcases as [H|[H|H]].
  - assert (E : ((y * y + z * z) * (N - 1) = 0)%R) by lra.
    apply Rmult_integral in E. destruct E; lra.
  - assert (E : ((x * x + z * z) * (N - 1) = 0)%R) by lra.
    apply Rmult_integral in E. destruct E; lra.
  - assert (E : ((x * x + y * y) * (N - 1) = 0)%R) by lra.
    apply Rmult_integral in E. destruct E; lra.
Qed.

Lemma quaternion_rotation_needs_unit_witness :
  (forall i j : nat, (i < 3)%nat -> (j < 3)%nat ->
      Transform.block_mul_transpose
        (Transform.rotation_q (Transform.mkQuaternion 1 1 0 0)) i j
      = Transform.kronecker i j)
  <-> Transform.norm2_q (Transform.mkQuaternion 1 1 0 0) = 1%R.
Proof.
  apply (quaternion_rotation_needs_unit (Transform.mkQuaternion 1 1 0 0)).
  left. simpl. lra.
Defined.

(** X22.  A quaternion and its opposite give the same matrix. *)
Theorem quaternion_rotation_opposite :
  forall q : Transform.Quaternion,
    Transform.rotation_q (Transform.opp_q q) = Transform.rotation_q q.
Proof.
  intros [w x y z]. unfold Transform.rotation_q, Transform.opp_q. simpl.
  repeat (apply f_equal2; [ring|]). reflexivity.
Qed.

(** X23.  The conjugate quaternion gives the transposed matrix. *)
Theorem quaternion_rotation_conjugate :
  forall q : Transform.Quaternion,
    Transform.rotation_q (Transform.conj_q q)
    = Transform.transpose (Transform.rotation_q q).
Proof.
  intros [w x y z].
  unfold Transform.rotation_q, Transform.conj_q, Transform.transpose,
    Transform.mat_at. simpl.
  repeat (apply f_equal2; [ring|]). reflexivity.
Qed.

(** X24.  A quaternion with a zero vector part gives the identity matrix
    whatever its scalar part is, the zero quaternion included: the scalar
    part is only ever multiplied by the vector part. *)
Theorem quaternion_rotation_scalar :
  forall w : R,
    Transform.rotation_q (Transform.mkQuaternion w 0 0 0) = Transform.unit.
Proof.
  intros w. unfold Transform.rotation_q, Transform.unit. simpl.
  repeat (apply f_equal2; [ring|]). reflexivity.
Qed.
